(** * Verification of the chatbot-ia keyword pipeline (app/main.py)

    A Python [str] is modelled as its sequence of Unicode code points
    ([pystr := list Z]); [u] reads a UTF-8 literal of this file into that
    form, so the keywords and replies below are the source's own literals.

    A Python [float] is modelled by the rational that its [repr] prints
    (0.95 is [0.95%Q]).  Distinct doubles have disjoint, ordered rounding
    intervals, so [<], [>] and [==] between floats agree with [Qlt] and
    [Qeq] on these representatives. *)

From Stdlib Require Import ZArith QArith Ascii String List Bool Lia.
From stdpp Require Import base gmap list.
Import ListNotations.
Local Open Scope Z_scope.

Abbreviation pystr := (list Z).

(** ** Python strings *)

(** Decoding of a UTF-8 byte string into code points. *)
Definition cont (c : ascii) : Z := Z.of_nat (nat_of_ascii c) mod 64.

Fixpoint u (s : string) : pystr :=
  match s with
  | EmptyString => []
  | String c1 r1 =>
      let b1 := Z.of_nat (nat_of_ascii c1) in
      if b1 <? 128 then b1 :: u r1
      else match r1 with
           | EmptyString => []
           | String c2 r2 =>
               if b1 <? 224 then (b1 mod 32) * 64 + cont c2 :: u r2
               else match r2 with
                    | EmptyString => []
                    | String c3 r3 =>
                        if b1 <? 240
                        then (b1 mod 16) * 4096 + cont c2 * 64 + cont c3 :: u r3
                        else match r3 with
                             | EmptyString => []
                             | String c4 r4 =>
                                 (b1 mod 8) * 262144 + cont c2 * 4096
                                 + cont c3 * 64 + cont c4 :: u r4
                             end
                    end
           end
  end.

(** [str.lower] on one code point, written out for the Basic Latin and
    Latin-1 Supplement blocks (the blocks of every literal of the program):
    A-Z and the Latin-1 capitals (U+00C0..U+00DE except the sign U+00D7) move
    down by 32; every other code point is left as it is. *)
Definition lower_cp (c : Z) : Z :=
  if (65 <=? c) && (c <=? 90) then c + 32
  else if (192 <=? c) && (c <=? 222) && negb (c =? 215) then c + 32
  else c.

Definition lower (s : pystr) : pystr := map lower_cp s.

(** [needle in hay] for Python strings: substring containment. *)
Fixpoint startswith (hay needle : pystr) {struct needle} : bool :=
  match needle, hay with
  | [], _ => true
  | n :: ns, h :: hs => (n =? h) && startswith hs ns
  | _ :: _, [] => false
  end.

Fixpoint contains (hay needle : pystr) : bool :=
  startswith hay needle
  || match hay with [] => false | _ :: hs => contains hs needle end.

(** [any(word in s for word in words)] *)
Definition any_in (s : pystr) (words : list pystr) : bool :=
  existsb (fun w => contains s w) words.

(** ** classify_intent (main.py, lines 192-210) *)

(** The dictionary [{"type": ..., "confidence": ...}]. *)
Record Intent := mkIntent { type : pystr; confidence : Q }.

Definition order_status_words := map u ["pedido"; "status"; "encomenda"; "tracking"]%string.
Definition product_info_words := map u ["produto"; "preço"; "informação"; "detalhes"]%string.
Definition billing_words := map u ["cobrança"; "fatura"; "pagamento"; "valor"]%string.
Definition technical_support_words :=
  map u ["problema"; "defeito"; "não funciona"; "suporte"]%string.
Definition complaint_words := map u ["reclamação"; "insatisfeito"; "ruim"]%string.
Definition greeting_words := map u ["olá"; "oi"; "bom dia"; "boa tarde"]%string.

Definition classify_intent (message : pystr) : Intent :=
  let message_lower := lower message in
  if any_in message_lower order_status_words then mkIntent (u "order_status") 0.95%Q
  else if any_in message_lower product_info_words then mkIntent (u "product_info") 0.90%Q
  else if any_in message_lower billing_words then mkIntent (u "billing") 0.88%Q
  else if any_in message_lower technical_support_words
  then mkIntent (u "technical_support") 0.92%Q
  else if any_in message_lower complaint_words then mkIntent (u "complaint") 0.85%Q
  else if any_in message_lower greeting_words then mkIntent (u "greeting") 0.98%Q
  else mkIntent (u "general_inquiry") 0.70%Q.


(** ** process_message (main.py, lines 162-190) *)

(** The request body [ChatMessage] (lines 31-34). *)
Record ChatMessage := mkChatMessage { user_id : pystr; message : pystr; channel : pystr }.

Definition greeting_reply : pystr :=
  u "Olá! 👋 Sou o assistente virtual da empresa. Como posso ajudá-lo hoje? Posso auxiliar com informações sobre pedidos, produtos, suporte técnico e muito mais!".

Definition order_reply : pystr :=
  u "📦 Para consultar seu pedido, preciso do número. Pode me informar o número do pedido? Exemplo: #12345. Com essa informação, posso verificar o status, rastreamento e previsão de entrega!".

Definition product_reply : pystr :=
  u "🛍️ Temos diversos produtos disponíveis! Pode me dizer qual produto específico você tem interesse? Posso fornecer informações sobre características, preços, disponibilidade e formas de pagamento.".

Definition support_reply : pystr :=
  u "🛠️ Sinto muito pelo inconveniente! Vou ajudar você a resolver isso. Pode me descrever o problema com mais detalhes? Qual produto está apresentando problema e o que exatamente está acontecendo?".

Definition billing_reply : pystr :=
  u "💰 Questões de cobrança são importantes! Posso ajudar com dúvidas sobre sua fatura, formas de pagamento, vencimentos e negociação. Qual é sua dúvida específica sobre cobrança?".

Definition cancel_reply : pystr :=
  u "❌ Entendi que você deseja cancelar algo. Para processar seu cancelamento de forma adequada, preciso de mais informações. O que você gostaria de cancelar? Pedido, assinatura ou outro serviço?".

Definition gratitude_reply : pystr :=
  u "😊 Fico feliz em ter ajudado! Se precisar de mais alguma coisa, estarei sempre aqui. Tenha um ótimo dia! ⭐".

Definition default_reply : pystr :=
  u "🤔 Interessante! Estou processando sua solicitação. Embora eu possa ajudar com diversas questões, para esta situação específica, que tal falar com um de nossos especialistas? Eles terão todo prazer em ajudar você!".

Definition process_message (msg : ChatMessage) : pystr :=
  let user_msg := lower (message msg) in
  if any_in user_msg (map u ["olá"; "oi"; "bom dia"; "boa tarde"]%string) then greeting_reply
  else if any_in user_msg (map u ["pedido"; "status"; "encomenda"]%string) then order_reply
  else if any_in user_msg (map u ["produto"; "preço"; "informação"]%string) then product_reply
  else if any_in user_msg (map u ["problema"; "não funciona"; "defeito"; "suporte"]%string)
  then support_reply
  else if any_in user_msg (map u ["cobrança"; "fatura"; "pagamento"]%string) then billing_reply
  else if any_in user_msg (map u ["cancelar"; "cancelamento"]%string) then cancel_reply
  else if any_in user_msg (map u ["obrigado"; "valeu"; "muito bom"]%string) then gratitude_reply
  else default_reply.

(** Python's [x < y] on floats. *)
Definition Qltb (x y : Q) : bool := negb (Qle_bool y x).

(** ** should_transfer_to_human (main.py, lines 212-229) *)

Definition human_keywords : list pystr :=
  map u ["falar com"; "atendente"; "pessoa"; "humano"; "gerente"; "supervisão"]%string.

Definition should_transfer_to_human (message : pystr) (intent : Intent) : bool :=
  if any_in (lower message) human_keywords then true
  else if bool_decide (type intent = u "complaint") && Qltb 0.8%Q (confidence intent)
  then true
  else if Qltb (confidence intent) 0.7%Q then true
  else false.

(** ** generate_suggestions (main.py, lines 231-268) *)

(** The dictionary literal [suggestions], entry by entry. *)
Definition suggestion_table : list (pystr * list pystr) := [
    (u "order_status", map u [
      "📦 Consultar outro pedido";
      "📱 Receber notificações por WhatsApp";
      "📧 Falar com atendente"]%string);
    (u "product_info", map u [
      "🛍️ Ver produtos similares";
      "💰 Consultar formas de pagamento";
      "📞 Falar com vendedor"]%string);
    (u "technical_support", map u [
      "📋 Acessar tutorial";
      "🎥 Ver vídeo explicativo";
      "👨‍💻 Falar com técnico"]%string);
    (u "billing", map u [
      "💳 Ver formas de pagamento";
      "📄 Segunda via da fatura";
      "💰 Negociar desconto"]%string);
    (u "complaint", map u [
      "📝 Abrir chamado formal";
      "📞 Falar com supervisor";
      "🎁 Ver compensações"]%string)].

Definition suggestions : gmap pystr (list pystr) := list_to_map suggestion_table.

Definition default_suggestions : list pystr :=
  map u ["❓ Fazer outra pergunta"; "📞 Falar com atendente"; "🏠 Voltar ao início"]%string.

(** [suggestions.get(intent_type, default)]; [message] is a parameter of the
    source function that its body never reads. *)
Definition generate_suggestions (intent : Intent) (message : pystr) : list pystr :=
  let intent_type := type intent in
  match suggestions !! intent_type with
  | Some l => l
  | None => default_suggestions
  end.

(** ** The POST /chat handler (main.py, lines 97-137) *)

Module Response.
(** The pydantic model [ChatResponse] (lines 36-43). *)
Record ChatResponse := mkChatResponse {
  response : pystr;
  intent : pystr;
  confidence : Q;
  requires_human : bool;
  suggested_actions : list pystr;
  session_id : pystr;
  timestamp : pystr }.
End Response.

(** The handler either returns a [ChatResponse] (status 200) or, when
    anything inside its [try] raises, the fixed error envelope (status 500). *)
Inductive ChatResult :=
  | Ok200 (r : Response.ChatResponse)
  | Err500.

(** Construction of a [ChatResponse]: pydantic checks [0 <= confidence <= 1]
    (Field(ge=0, le=1)) and raises a ValidationError otherwise. *)
Definition make_response (response intent : pystr) (confidence : Q)
    (requires_human : bool) (suggested_actions : list pystr)
    (session_id timestamp : pystr) : option Response.ChatResponse :=
  if Qle_bool 0 confidence && Qle_bool confidence 1
  then Some (Response.mkChatResponse response intent confidence requires_human
               suggested_actions session_id timestamp)
  else None.

(** [now] is [datetime.now().strftime('%Y%m%d_%H%M%S')] and [ts] the
    [timestamp] default of the response; the background log task is not
    part of the reply and is left out. *)
Definition chat (msg : ChatMessage) (now ts : pystr) : ChatResult :=
  let response_text := process_message msg in
  let intent := classify_intent (message msg) in
  let confidence := 0.95%Q in
  let requires_human := should_transfer_to_human (message msg) intent in
  let suggested_actions := generate_suggestions intent (message msg) in
  let session_id := u "session_" ++ user_id msg ++ u "_" ++ now in
  match make_response response_text (type intent) confidence requires_human
          suggested_actions session_id ts with
  | Some r => Ok200 r
  | None => Err500
  end.

(** ** The background log task of POST /chat (lines 116-117, 270-284) *)

(** A call [background_tasks.add_task(log_conversation, message, response_text,
    intent)]: the task and the arguments it will run with. *)
Record LogTask := mkLogTask {
  task_message : ChatMessage; task_response : pystr; task_intent : Intent }.

(** The handler with its list of scheduled background tasks.  The task is
    added (line 117) before the [ChatResponse] is built (line 119), so it is
    scheduled on both outcomes of the construction. *)
Definition chat_with_tasks (msg : ChatMessage) (now ts : pystr)
  : ChatResult * list LogTask :=
  let response_text := process_message msg in
  let intent := classify_intent (message msg) in
  let confidence := 0.95%Q in
  let requires_human := should_transfer_to_human (message msg) intent in
  let suggested_actions := generate_suggestions intent (message msg) in
  let session_id := u "session_" ++ user_id msg ++ u "_" ++ now in
  let background_tasks := [mkLogTask msg response_text intent] in
  match make_response response_text (type intent) confidence requires_human
          suggested_actions session_id ts with
  | Some r => (Ok200 r, background_tasks)
  | None => (Err500, background_tasks)
  end.

(** The dictionary [log_data] built by [log_conversation]; [now_iso] is
    [datetime.now().isoformat()] when the task runs. *)
Record LogData := mkLogData {
  log_timestamp : pystr; log_user_id : pystr; log_channel : pystr;
  log_user_message : pystr; log_bot_response : pystr;
  log_intent : pystr; log_confidence : Q }.

Definition log_conversation (message : ChatMessage) (response : pystr) (intent : Intent)
    (now_iso : pystr) : LogData :=
  let '(mkChatMessage user_id user_message channel) := message in
  mkLogData now_iso user_id channel user_message response (type intent) (confidence intent).

Definition run_task (t : LogTask) (now_iso : pystr) : LogData :=
  log_conversation (task_message t) (task_response t) (task_intent t) now_iso.

(** ** GET /analytics/summary (lines 45-51, 139-159) *)

(** The Python values of the literal passed for [top_intents]. *)
Inductive PyVal :=
  | VStr (s : pystr)
  | VInt (z : Z).

Definition is_digit (c : Z) : bool := (48 <=? c) && (c <=? 57).

Definition digits_value (s : pystr) : Z :=
  fold_left (fun acc c => acc * 10 + (c - 48)) s 0.

(** pydantic's coercion of a [str] to an [int] field: an optional sign
    followed by decimal digits is read as a number.  The whitespace around
    the digits and the underscores between them that pydantic also accepts
    are not modelled; every other string, in particular one holding a
    letter, is rejected. *)
Definition int_of_str (s : pystr) : option Z :=
  let '(sign, ds) :=
    match s with
    | c :: rest => if c =? 45 then (-1, rest) else if c =? 43 then (1, rest) else (1, s)
    | [] => (1, [])
    end in
  match ds with
  | [] => None
  | _ => if forallb is_digit ds then Some (sign * digits_value ds) else None
  end.

(** Validation of one value against the declared type [int]. *)
Definition validate_int (v : PyVal) : option Z :=
  match v with
  | VInt z => Some z
  | VStr s => int_of_str s
  end.

(** Validation of a [List[Dict[str, int]]]: every value of every dict. *)
Definition validate_dicts (ds : list (list (pystr * PyVal)))
  : option (list (list (pystr * Z))) :=
  mapM (fun d => mapM (fun kv => z ← validate_int kv.2; Some (kv.1, z)) d) ds.

Record AnalyticsResponse := mkAnalyticsResponse {
  total_conversations_today : Z;
  resolution_rate : Q;
  average_response_time : Q;
  human_handoff_rate : Q;
  satisfaction_score : Q;
  top_intents : list (list (pystr * Z)) }.

(** The endpoint answers the model (status 200) or, when building it
    raises, FastAPI's generic 500 response. *)
Inductive AnalyticsResult :=
  | AnalyticsOk (r : AnalyticsResponse)
  | ServerError.

Definition make_analytics (total : Z) (rr art hhr ss : Q)
    (tops : list (list (pystr * PyVal))) : AnalyticsResult :=
  match validate_dicts tops with
  | Some tops' => AnalyticsOk (mkAnalyticsResponse total rr art hhr ss tops')
  | None => ServerError
  end.

Definition analytics_summary : AnalyticsResult :=
  make_analytics 1247 0.96%Q 1.2%Q 0.04%Q 4.8%Q
    [[(u "intent", VStr (u "order_status")); (u "count", VInt 450)];
     [(u "intent", VStr (u "product_info")); (u "count", VInt 320)];
     [(u "intent", VStr (u "billing")); (u "count", VInt 180)];
     [(u "intent", VStr (u "technical_support")); (u "count", VInt 150)];
     [(u "intent", VStr (u "complaint")); (u "count", VInt 85)]].

(** ** Definitions used by the statements *)

(** The request of the scenario with an unmatched message. *)
Definition unmatched_request : ChatMessage :=
  mkChatMessage (u "u3") (u "xyz123") (u "web").

(** The seven possible results of [classify_intent]. *)
Definition intent_outcomes : list Intent :=
  [mkIntent (u "order_status") 0.95%Q; mkIntent (u "product_info") 0.90%Q;
   mkIntent (u "billing") 0.88%Q; mkIntent (u "technical_support") 0.92%Q;
   mkIntent (u "complaint") 0.85%Q; mkIntent (u "greeting") 0.98%Q;
   mkIntent (u "general_inquiry") 0.70%Q].

(** First-match classification over a table of (topic, confidence,
    keywords) rows tested in order, with (general_inquiry, 0.70) when no row
    matches: the algorithm as the spec describes it. *)
Definition classify_first_match (table : list (pystr * Q * list pystr)) (message : pystr)
  : Intent :=
  match find (fun row => any_in (lower message) (snd row)) table with
  | Some (t, c, _) => mkIntent t c
  | None => mkIntent (u "general_inquiry") 0.70%Q
  end.

(** The confidence attached to a keyword bucket, looked up by its topic. *)
Definition bucket_confidence (t : pystr) : Q :=
  match find (fun i => bool_decide (type i = t)) intent_outcomes with
  | Some i => confidence i
  | None => 0.70%Q
  end.

(** ** Sanity checks on concrete inputs *)

Example u_ola : u "olá" = [111; 108; 225]. Proof. reflexivity. Qed.
Example lower_OLA : lower (u "OLÁ") = u "olá". Proof. reflexivity. Qed.
Example classify_ex : classify_intent (u "Qual o status do meu pedido #123?")
  = mkIntent (u "order_status") 0.95%Q.
Proof. reflexivity. Qed.
Example chat_ex : exists r,
  chat (mkChatMessage (u "u1") (u "Qual o status do meu pedido #123?") (u "web"))
       (u "20261019_120000") (u "2026-10-19T12:00:00") = Ok200 r
  /\ Response.intent r = u "order_status" /\ Response.requires_human r = false.
Proof. eexists; split; [reflexivity | split; reflexivity]. Qed.

Example int_of_str_ex : int_of_str (u "450") = Some 450 /\ int_of_str (u "-7") = Some (-7)
  /\ int_of_str (u "order_status") = None.
Proof. repeat split. Qed.

(** ** Auxiliary lemmas *)

Lemma Qltb_iff (x y : Q) : Qltb x y = true <-> (x < y)%Q.
Proof.
  unfold Qltb. rewrite negb_true_iff. split.
  - intros H. apply Qnot_le_lt. intros Hle.
    apply Qle_bool_iff in Hle. congruence.
  - intros H. destruct (Qle_bool y x) eqn:E; [|reflexivity].
    apply Qle_bool_iff in E. exfalso. apply (Qlt_not_le x y); assumption.
Qed.

(** The handler never reaches its [except] branch: its reply is the record
    assembled from the four helpers, with the constant confidence 0.95. *)
Lemma chat_ok (msg : ChatMessage) (now ts : pystr) :
  chat msg now ts =
  Ok200 (Response.mkChatResponse (process_message msg)
           (type (classify_intent (message msg))) 0.95%Q
           (should_transfer_to_human (message msg) (classify_intent (message msg)))
           (generate_suggestions (classify_intent (message msg)) (message msg))
           (u "session_" ++ user_id msg ++ u "_" ++ now) ts).
Proof. reflexivity. Qed.

(** A keyword made of code points that [str.lower] fixes stays a substring
    of the lower-cased message. *)
Lemma startswith_lower (h n : pystr) :
  startswith h n = true -> forallb (fun c => lower_cp c =? c) n = true ->
  startswith (lower h) n = true.
Proof.
  revert h. induction n as [|x n IH]; intros h Hs Hf; [reflexivity|].
  destruct h as [|y h]; [discriminate|].
  simpl in Hs, Hf |- *. apply andb_true_iff in Hs as [Hxy Hs].
  apply andb_true_iff in Hf as [Hx Hf].
  apply Z.eqb_eq in Hxy. apply Z.eqb_eq in Hx. subst y.
  rewrite Hx, Z.eqb_refl. simpl. apply IH; assumption.
Qed.

Lemma contains_lower (h n : pystr) :
  contains h n = true -> forallb (fun c => lower_cp c =? c) n = true ->
  contains (lower h) n = true.
Proof.
  induction h as [|y h IH]; intros Hc Hf.
  - exact Hc.
  - simpl in Hc |- *. apply orb_true_iff in Hc as [Hs|Hc].
    + apply orb_true_iff. left. apply (startswith_lower (y :: h)); assumption.
    + apply orb_true_iff. right. apply IH; assumption.
Qed.

Lemma any_in_lower (s : pystr) (ws : list pystr) :
  any_in s ws = true ->
  forallb (forallb (fun c => lower_cp c =? c)) ws = true ->
  any_in (lower s) ws = true.
Proof.
  unfold any_in. intros Hs Hf. apply existsb_exists in Hs as [w [Hw Hc]].
  apply existsb_exists. exists w. split; [assumption|].
  apply contains_lower; [assumption|].
  rewrite forallb_forall in Hf. apply Hf, Hw.
Qed.

Lemma any_in_app (s : pystr) (ws1 ws2 : list pystr) :
  any_in s (ws1 ++ ws2) = any_in s ws1 || any_in s ws2.
Proof. apply existsb_app. Qed.

(** The four rules of [should_transfer_to_human], as one equivalence. *)
Lemma should_transfer_to_human_iff (m t : pystr) (c : Q) :
  should_transfer_to_human m (mkIntent t c) = true <->
  any_in (lower m) human_keywords = true
  \/ (t = u "complaint" /\ (0.8 < c)%Q)
  \/ (c < 0.7)%Q.
Proof.
  unfold should_transfer_to_human.
  change (type (mkIntent t c)) with t. change (confidence (mkIntent t c)) with c.
  destruct (any_in (lower m) human_keywords); [tauto|].
  pose proof (Qltb_iff 0.8 c) as E1. pose proof (Qltb_iff c 0.7) as E2.
  case_bool_decide as Ht; destruct (Qltb 0.8 c), (Qltb c 0.7); simpl;
    intuition congruence.
Qed.

Lemma classify_intent_cases (m : pystr) : In (classify_intent m) intent_outcomes.
Proof.
  unfold classify_intent, intent_outcomes.
  destruct (any_in (lower m) order_status_words), (any_in (lower m) product_info_words),
    (any_in (lower m) billing_words), (any_in (lower m) technical_support_words),
    (any_in (lower m) complaint_words), (any_in (lower m) greeting_words);
    cbn [In]; repeat first [left; reflexivity | right].
Qed.

Lemma suggestion_lengths (l : list pystr) (t : pystr) :
  suggestions !! t = Some l -> length l = 3%nat.
Proof.
  intros H. apply elem_of_list_to_map_2, list_elem_of_In in H.
  assert (Hall : forallb (fun kv => Nat.eqb (length kv.2) 3) suggestion_table = true)
    by reflexivity.
  rewrite forallb_forall in Hall. apply Hall in H. apply Nat.eqb_eq in H. exact H.
Qed.

(** ** Claims *)

(** C1: for every request, the [confidence] field of the reply of POST /chat
    is the constant 0.95, whatever the classifier's own confidence for the
    message is: the handler answers with status 200 and confidence 0.95. *)
Theorem chat_confidence_is_constant (msg : ChatMessage) (now ts : pystr) :
  exists r, chat msg now ts = Ok200 r /\ Response.confidence r = 0.95%Q.
Proof. rewrite chat_ok. eexists. split; reflexivity. Qed.

(** C2 (as stated, refuted): the reply to [{user_id:"u3", message:"xyz123"}]
    does not carry intent general_inquiry, confidence 0.70 and
    requires_human false together: its confidence field is 0.95. *)
Lemma unmatched_scenario_counterexample :
  ~ (exists r, chat unmatched_request (u "20261019_120000") (u "2026-10-19T12:00:00")
                 = Ok200 r
      /\ Response.intent r = u "general_inquiry"
      /\ (Response.confidence r == 0.70)%Q
      /\ Response.requires_human r = false).
Proof.
  intros [r [Hr [_ [Hc _]]]]. rewrite chat_ok in Hr. injection Hr as <-.
  vm_compute in Hc. discriminate.
Qed.

(** C2 (amended): for [{user_id:"u3", message:"xyz123"}] the classifier
    yields (general_inquiry, 0.70); the low-confidence rule does not fire at
    0.70, so the reply has intent general_inquiry and requires_human false,
    and its confidence field is the handler's constant 0.95. *)
Theorem unmatched_scenario (now ts : pystr) :
  classify_intent (u "xyz123") = mkIntent (u "general_inquiry") 0.70%Q
  /\ should_transfer_to_human (u "xyz123") (classify_intent (u "xyz123")) = false
  /\ exists r, chat unmatched_request now ts = Ok200 r
     /\ Response.intent r = u "general_inquiry"
     /\ Response.confidence r = 0.95%Q
     /\ Response.requires_human r = false.
Proof.
  split; [reflexivity|]. split; [reflexivity|].
  rewrite chat_ok. eexists. repeat split; reflexivity.
Qed.

(** C4: some message containing "suporte" gets the support reply from the
    response generator while the classifier does not label it
    technical_support ("suporte fatura" is classified as billing, which the
    classifier tests before technical_support). *)
Theorem suporte_divergence :
  exists msg : ChatMessage,
    contains (message msg) (u "suporte") = true
    /\ process_message msg = support_reply
    /\ type (classify_intent (message msg)) <> u "technical_support".
Proof.
  exists (mkChatMessage (u "u4") (u "suporte fatura") (u "web")).
  split; [reflexivity|]. split; [reflexivity|].
  vm_compute. discriminate.
Qed.

(** C5: the handoff decider returns true exactly when the lower-cased
    message contains one of the human-request phrases, or the topic is
    complaint with confidence above 0.8, or the confidence is below 0.7;
    "Quero falar com um atendente" is handed off whatever its topic and
    confidence. *)
Theorem handoff_rule :
  (forall (m t : pystr) (c : Q),
     should_transfer_to_human m (mkIntent t c) = true <->
     any_in (lower m)
       (map u ["falar com"; "atendente"; "pessoa"; "humano"; "gerente"; "supervisão"]%string)
       = true
     \/ (t = u "complaint" /\ (0.8 < c)%Q)
     \/ (c < 0.7)%Q)
  /\ (forall (t : pystr) (c : Q),
        should_transfer_to_human (u "Quero falar com um atendente") (mkIntent t c) = true).
Proof.
  split.
  - intros m t c. rewrite should_transfer_to_human_iff. reflexivity.
  - intros t c. reflexivity.
Qed.

(** C3 (as stated, refuted): a message containing a greeting word is not
    always classified as greeting: "Oi, qual o status do meu pedido?" also
    contains order_status keywords, which the classifier tests first. *)
Lemma greeting_claim_counterexample :
  ~ (forall msg : ChatMessage,
       any_in (lower (message msg))
         (map u ["oi"; "olá"; "bom dia"; "boa tarde"]%string) = true ->
       classify_intent (message msg) = mkIntent (u "greeting") 0.98%Q
       /\ process_message msg = greeting_reply).
Proof.
  intros H.
  destruct (H (mkChatMessage (u "u5") (u "Oi, qual o status do meu pedido?") (u "web"))
              ltac:(reflexivity)) as [Hc _].
  apply (f_equal type) in Hc. vm_compute in Hc. discriminate.
Qed.

(** C3 (amended): for a message whose lower-cased form contains "olá",
    "oi", "bom dia" or "boa tarde", the response generator returns the
    greeting reply; the classifier returns (greeting, 0.98) exactly when the
    lower-cased message contains none of the order_status, product_info,
    billing, technical_support and complaint keywords. *)
Theorem greeting_rule (msg : ChatMessage)
  (H : any_in (lower (message msg)) greeting_words = true) :
  process_message msg = greeting_reply
  /\ (classify_intent (message msg) = mkIntent (u "greeting") 0.98%Q <->
      any_in (lower (message msg))
        (order_status_words ++ product_info_words ++ billing_words
         ++ technical_support_words ++ complaint_words) = false).
Proof.
  split.
  - unfold process_message. fold greeting_words. rewrite H. reflexivity.
  - unfold classify_intent. rewrite H, !any_in_app.
    destruct (any_in (lower (message msg)) order_status_words),
      (any_in (lower (message msg)) product_info_words),
      (any_in (lower (message msg)) billing_words),
      (any_in (lower (message msg)) technical_support_words),
      (any_in (lower (message msg)) complaint_words); cbn [orb];
      split; intros E; first
        [ reflexivity | discriminate E
        | apply (f_equal type) in E; vm_compute in E; discriminate E ].
Qed.

Lemma greeting_rule_witness :
  let msg := mkChatMessage (u "u1") (u "Bom dia!") (u "web") in
  any_in (lower (message msg)) greeting_words = true
  /\ process_message msg = greeting_reply
  /\ (classify_intent (message msg) = mkIntent (u "greeting") 0.98%Q <->
      any_in (lower (message msg))
        (order_status_words ++ product_info_words ++ billing_words
         ++ technical_support_words ++ complaint_words) = false).
Proof.
  intros msg. split; [reflexivity|].
  apply greeting_rule. reflexivity.
Defined.

(** C6: the classifier is the first-match scan of the keyword lists in the
    order order_status, product_info, billing, technical_support, complaint,
    greeting, each with its fixed confidence, defaulting to
    (general_inquiry, 0.70); hence a message containing "pedido", "status"
    or "encomenda" is classified (order_status, 0.95). *)
Theorem classify_intent_first_match (m : pystr) :
  classify_intent m =
    classify_first_match
      [(u "order_status", 0.95%Q, order_status_words);
       (u "product_info", 0.90%Q, product_info_words);
       (u "billing", 0.88%Q, billing_words);
       (u "technical_support", 0.92%Q, technical_support_words);
       (u "complaint", 0.85%Q, complaint_words);
       (u "greeting", 0.98%Q, greeting_words)] m
  /\ (any_in m (map u ["pedido"; "status"; "encomenda"]%string) = true ->
      classify_intent m = mkIntent (u "order_status") 0.95%Q).
Proof.
  split.
  - unfold classify_intent, classify_first_match. cbn [find snd].
    destruct (any_in (lower m) order_status_words), (any_in (lower m) product_info_words),
      (any_in (lower m) billing_words), (any_in (lower m) technical_support_words),
      (any_in (lower m) complaint_words), (any_in (lower m) greeting_words);
      reflexivity.
  - intros H. apply any_in_lower in H; [|reflexivity].
    unfold classify_intent.
    replace order_status_words
      with (map u ["pedido"; "status"; "encomenda"]%string ++ [u "tracking"])
      by reflexivity.
    rewrite any_in_app, H. reflexivity.
Qed.

Lemma classify_intent_first_match_witness :
  any_in (u "Qual o STATUS do meu pedido?") (map u ["pedido"; "status"; "encomenda"]%string)
    = true
  /\ classify_intent (u "Qual o STATUS do meu pedido?") = mkIntent (u "order_status") 0.95%Q.
Proof.
  split; [reflexivity|].
  apply (proj2 (classify_intent_first_match (u "Qual o STATUS do meu pedido?"))).
  reflexivity.
Defined.

(** C7: the confidence of the reply of POST /chat, and the classifier's
    confidence for the message, both lie in {0.98, 0.95, 0.92, 0.90, 0.88,
    0.85, 0.70}; the classifier's is a function of the bucket (topic) that
    matched, and the reply's is the same constant for every bucket. *)
Theorem confidence_in_fixed_set (msg : ChatMessage) (now ts : pystr) :
  exists r, chat msg now ts = Ok200 r
  /\ In (Response.confidence r) [0.98; 0.95; 0.92; 0.90; 0.88; 0.85; 0.70]%Q
  /\ In (confidence (classify_intent (message msg)))
        [0.98; 0.95; 0.92; 0.90; 0.88; 0.85; 0.70]%Q
  /\ confidence (classify_intent (message msg))
     = bucket_confidence (type (classify_intent (message msg))).
Proof.
  rewrite chat_ok. eexists. split; [reflexivity|]. split; [cbn; tauto|].
  pose proof (classify_intent_cases (message msg)) as Hc.
  destruct (classify_intent (message msg)) as [t c].
  cbn [In intent_outcomes] in Hc.
  repeat destruct Hc as [Hc|Hc]; try contradiction; injection Hc as <- <-;
    cbn [type confidence]; (split; [cbn; tauto | vm_compute; reflexivity]).
Qed.

(** C8: a confidence below 0.7 makes the handoff decider return true
    whatever the message and topic; and no confidence the classifier
    produces is below 0.7, so for classifier outputs this rule never
    decides. *)
Theorem low_confidence_handoff (m t : pystr) (c : Q) (Hc : (c < 0.7)%Q) :
  should_transfer_to_human m (mkIntent t c) = true
  /\ forall m' : pystr, ~ (confidence (classify_intent m') < 0.7)%Q.
Proof.
  split.
  - apply should_transfer_to_human_iff. right. right. exact Hc.
  - intros m' Hlt. pose proof (classify_intent_cases m') as Hi.
    destruct (classify_intent m') as [t' c'].
    cbn [In intent_outcomes] in Hi.
    repeat destruct Hi as [Hi|Hi]; try contradiction; injection Hi as _ <-;
      cbn [confidence] in Hlt; vm_compute in Hlt; discriminate Hlt.
Qed.

Lemma low_confidence_handoff_witness :
  (0.5 < 0.7)%Q
  /\ should_transfer_to_human (u "xyz123") (mkIntent (u "greeting") 0.5%Q) = true
  /\ forall m' : pystr, ~ (confidence (classify_intent m') < 0.7)%Q.
Proof.
  split; [reflexivity|].
  apply (low_confidence_handoff (u "xyz123") (u "greeting") 0.5%Q). reflexivity.
Defined.

(** C9: for every topic the suggestion generator returns exactly three
    strings: the table entry for the five listed topics, the default list
    for any other topic; so every reply of POST /chat carries three
    suggested actions. *)
Theorem suggestions_have_three (t m : pystr) (c : Q) :
  length (generate_suggestions (mkIntent t c) m) = 3%nat
  /\ (~ In t [u "order_status"; u "product_info"; u "technical_support";
              u "billing"; u "complaint"] ->
      generate_suggestions (mkIntent t c) m = default_suggestions)
  /\ (forall (msg : ChatMessage) (now ts : pystr),
        exists r, chat msg now ts = Ok200 r
        /\ length (Response.suggested_actions r) = 3%nat).
Proof.
  assert (Hlen : forall i m', length (generate_suggestions i m') = 3%nat).
  { intros i m'. unfold generate_suggestions.
    destruct (suggestions !! type i) as [l|] eqn:E.
    - eapply suggestion_lengths. exact E.
    - reflexivity. }
  split; [apply Hlen|]. split.
  - intros Hn. unfold generate_suggestions, suggestions. cbn [type].
    rewrite (not_elem_of_list_to_map_1 suggestion_table t); [reflexivity|].
    rewrite list_elem_of_In. exact Hn.
  - intros msg now ts. rewrite chat_ok. eexists. split; [reflexivity|]. apply Hlen.
Qed.

Lemma suggestions_have_three_witness :
  ~ In (u "greeting") [u "order_status"; u "product_info"; u "technical_support";
                       u "billing"; u "complaint"]
  /\ generate_suggestions (mkIntent (u "greeting") 0.98%Q) (u "oi") = default_suggestions.
Proof.
  split.
  - vm_compute. intros H. repeat destruct H as [H|H]; discriminate || contradiction.
  - apply (suggestions_have_three (u "greeting") (u "oi") 0.98%Q).
    vm_compute. intros H. repeat destruct H as [H|H]; discriminate || contradiction.
Defined.

(** C10: the suggestions depend on the intent's type only; the message
    argument has no influence. *)
Theorem suggestions_ignore_message (i1 i2 : Intent) (m1 m2 : pystr)
  (H : type i1 = type i2) :
  generate_suggestions i1 m1 = generate_suggestions i2 m2.
Proof. unfold generate_suggestions. rewrite H. reflexivity. Qed.

Lemma suggestions_ignore_message_witness :
  type (mkIntent (u "billing") 0.88%Q) = type (mkIntent (u "billing") 0.5%Q)
  /\ generate_suggestions (mkIntent (u "billing") 0.88%Q) (u "fatura")
     = generate_suggestions (mkIntent (u "billing") 0.5%Q) (u "quero falar com humano").
Proof.
  split; [reflexivity|]. apply suggestions_ignore_message. reflexivity.
Defined.

(** ** Further properties of main.py *)

Lemma lower_cp_cases (c : Z) :
  (lower_cp c = c + 32 /\ ((65 <= c <= 90) \/ (192 <= c <= 222 /\ c <> 215)))
  \/ (lower_cp c = c /\ ~ ((65 <= c <= 90) \/ (192 <= c <= 222 /\ c <> 215))).
Proof.
  unfold lower_cp.
  destruct (Z.leb_spec 65 c), (Z.leb_spec c 90); cbn [andb];
    [left; split; [reflexivity | lia] | ..];
  destruct (Z.leb_spec 192 c), (Z.leb_spec c 222), (Z.eqb_spec c 215); cbn [andb negb];
    first [left; split; [reflexivity | lia] | right; split; [reflexivity | lia]].
Qed.

Lemma lower_cp_idem (c : Z) : lower_cp (lower_cp c) = lower_cp c.
Proof.
  destruct (lower_cp_cases c) as [[E H]|[E H]]; rewrite E; [|exact E].
  destruct (lower_cp_cases (c + 32)) as [[_ H']|[E' _]]; [lia | exact E'].
Qed.

Lemma lower_idem (s : pystr) : lower (lower s) = lower s.
Proof.
  unfold lower. rewrite map_map. apply map_ext. apply lower_cp_idem.
Qed.

(** X1: the classifier, the response generator and the handoff decider
    ignore letter case: lower-casing the message first changes none of
    their results. *)
Theorem keyword_matching_ignores_case (uid m ch : pystr) (i : Intent) :
  classify_intent (lower m) = classify_intent m
  /\ process_message (mkChatMessage uid (lower m) ch)
     = process_message (mkChatMessage uid m ch)
  /\ should_transfer_to_human (lower m) i = should_transfer_to_human m i.
Proof.
  unfold classify_intent, process_message, should_transfer_to_human. cbn [message].
  rewrite !lower_idem. repeat split.
Qed.


(** X3: a reply of POST /chat asks for a human exactly when the lower-cased
    message contains a human-request phrase or the message is classified as
    a complaint (whose confidence 0.85 passes the 0.8 bar; no classifier
    confidence is below 0.7). *)
Theorem chat_requires_human_iff (msg : ChatMessage) (now ts : pystr) :
  exists r, chat msg now ts = Ok200 r
  /\ (Response.requires_human r = true <->
      any_in (lower (message msg)) human_keywords = true
      \/ type (classify_intent (message msg)) = u "complaint").
Proof.
  rewrite chat_ok. eexists. split; [reflexivity|]. cbn [Response.requires_human].
  pose proof (classify_intent_cases (message msg)) as Hc.
  destruct (classify_intent (message msg)) as [t c].
  rewrite should_transfer_to_human_iff. cbn [type].
  cut ((t = u "complaint" /\ (0.8 < c)%Q) \/ (c < 0.7)%Q <-> t = u "complaint");
    [tauto|].
  cbn [In intent_outcomes] in Hc.
  repeat destruct Hc as [Hc|Hc]; try contradiction; injection Hc as <- <-;
    (split;
     [ intros [[H _]|H]; [exact H | vm_compute in H; discriminate H]
     | intros H; first [ left; split; [exact H | reflexivity]
                       | vm_compute in H; discriminate H ] ]).
Qed.

(** X4: a reply of POST /chat carries the default suggestions exactly when
    the message is classified as greeting or general_inquiry, the two
    classifier topics without an entry in the suggestion table. *)
Theorem chat_default_suggestions_iff (msg : ChatMessage) (now ts : pystr) :
  exists r, chat msg now ts = Ok200 r
  /\ (Response.suggested_actions r = default_suggestions <->
      type (classify_intent (message msg)) = u "greeting"
      \/ type (classify_intent (message msg)) = u "general_inquiry").
Proof.
  rewrite chat_ok. eexists. split; [reflexivity|]. cbn [Response.suggested_actions].
  pose proof (classify_intent_cases (message msg)) as Hc.
  destruct (classify_intent (message msg)) as [t c].
  cbn [In intent_outcomes] in Hc.
  repeat destruct Hc as [Hc|Hc]; try contradiction; injection Hc as <- <-;
    unfold generate_suggestions; cbn [type]; vm_compute;
    (split; intros H;
     first [ discriminate H | destruct H as [H|H]; discriminate H
           | left; reflexivity | right; reflexivity | reflexivity ]).
Qed.

Lemma any_in_incl (s : pystr) (ws1 ws2 : list pystr) :
  (forall w, In w ws1 -> In w ws2) -> any_in s ws1 = true -> any_in s ws2 = true.
Proof.
  unfold any_in. intros Hinc H. apply existsb_exists in H as [w [Hw Hc]].
  apply existsb_exists. exists w. split; [apply Hinc, Hw | exact Hc].
Qed.

(** Closes a reply branch whose keywords the classifier also tests and
    found absent ([Hk : any_in s ws' = false] with [ws] included in [ws']). *)
Ltac not_matched s Hk ws :=
  let E := fresh in
  let ws' := match type of Hk with any_in _ ?l = false => l end in
  destruct (any_in s ws) eqn:E; [
    exfalso; apply (any_in_incl s ws ws') in E;
    [ rewrite Hk in E; discriminate E
    | intros w Hw; unfold order_status_words, product_info_words, billing_words,
        technical_support_words, greeting_words; cbn [map In] in Hw |- *; tauto ]
  |].

(** X5: a message the classifier leaves as general_inquiry never gets the
    greeting, order, product, support or billing reply: every keyword of
    those reply branches is also a classifier keyword, so such a message is
    answered with the cancellation, gratitude or default reply. *)
Theorem general_inquiry_reply (msg : ChatMessage)
  (H : type (classify_intent (message msg)) = u "general_inquiry") :
  In (process_message msg) [cancel_reply; gratitude_reply; default_reply].
Proof.
  set (s := lower (message msg)).
  assert (Hc : any_in s order_status_words = false /\ any_in s product_info_words = false
               /\ any_in s billing_words = false /\ any_in s technical_support_words = false
               /\ any_in s greeting_words = false).
  { unfold classify_intent in H. fold s in H.
    destruct (any_in s order_status_words); [vm_compute in H; discriminate H|].
    destruct (any_in s product_info_words); [vm_compute in H; discriminate H|].
    destruct (any_in s billing_words); [vm_compute in H; discriminate H|].
    destruct (any_in s technical_support_words); [vm_compute in H; discriminate H|].
    destruct (any_in s complaint_words); [vm_compute in H; discriminate H|].
    destruct (any_in s greeting_words); [vm_compute in H; discriminate H|].
    repeat split. }
  destruct Hc as (H1 & H2 & H3 & H4 & H5).
  unfold process_message. fold s.
  not_matched s H5 (map u ["olá"; "oi"; "bom dia"; "boa tarde"]%string).
  not_matched s H1 (map u ["pedido"; "status"; "encomenda"]%string).
  not_matched s H2 (map u ["produto"; "preço"; "informação"]%string).
  not_matched s H4 (map u ["problema"; "não funciona"; "defeito"; "suporte"]%string).
  not_matched s H3 (map u ["cobrança"; "fatura"; "pagamento"]%string).
  destruct (any_in s (map u ["cancelar"; "cancelamento"]%string)); [left; reflexivity|].
  destruct (any_in s (map u ["obrigado"; "valeu"; "muito bom"]%string));
    [right; left; reflexivity | right; right; left; reflexivity].
Qed.

Lemma general_inquiry_reply_witness :
  let msg := mkChatMessage (u "u6") (u "Muito bom, valeu!") (u "web") in
  type (classify_intent (message msg)) = u "general_inquiry"
  /\ In (process_message msg) [cancel_reply; gratitude_reply; default_reply].
Proof.
  intros msg. split; [reflexivity|]. apply general_inquiry_reply. reflexivity.
Defined.

(** X6: the channel of a request has no influence on the reply, and the
    user id only on its session id: two requests with the same message get
    replies that agree on every other field, and identical replies when the
    user ids agree too. *)
Theorem chat_reply_depends_on_message (uid1 uid2 m ch1 ch2 now ts : pystr) :
  exists r1 r2,
    chat (mkChatMessage uid1 m ch1) now ts = Ok200 r1
    /\ chat (mkChatMessage uid2 m ch2) now ts = Ok200 r2
    /\ Response.response r1 = Response.response r2
    /\ Response.intent r1 = Response.intent r2
    /\ Response.confidence r1 = Response.confidence r2
    /\ Response.requires_human r1 = Response.requires_human r2
    /\ Response.suggested_actions r1 = Response.suggested_actions r2
    /\ Response.timestamp r1 = Response.timestamp r2
    /\ (uid1 = uid2 -> r1 = r2).
Proof.
  rewrite !chat_ok. do 2 eexists. split; [reflexivity|]. split; [reflexivity|].
  cbn [Response.response Response.intent Response.confidence Response.requires_human
       Response.suggested_actions Response.timestamp message user_id].
  repeat split. intros ->. reflexivity.
Qed.

Lemma chat_reply_depends_on_message_witness :
  u "ana" = u "ana"
  /\ exists r1 r2,
    chat (mkChatMessage (u "ana") (u "oi") (u "web")) (u "20261019_120000") (u "t") = Ok200 r1
    /\ chat (mkChatMessage (u "ana") (u "oi") (u "whatsapp")) (u "20261019_120000") (u "t")
       = Ok200 r2
    /\ r1 = r2.
Proof.
  split; [reflexivity|].
  destruct (chat_reply_depends_on_message (u "ana") (u "ana") (u "oi") (u "web")
              (u "whatsapp") (u "20261019_120000") (u "t"))
    as (r1 & r2 & H1 & H2 & _ & _ & _ & _ & _ & _ & Heq).
  exists r1, r2. split; [exact H1|]. split; [exact H2|]. apply Heq. reflexivity.
Defined.

(** X7: within one formatted second, two requests get the same session id
    exactly when their user ids are equal, whatever their messages and
    channels: the session id tells users apart but not the requests of one
    user in the same second. *)
Theorem session_id_same_second (uid1 uid2 m1 m2 ch1 ch2 now ts1 ts2 : pystr) :
  exists r1 r2,
    chat (mkChatMessage uid1 m1 ch1) now ts1 = Ok200 r1
    /\ chat (mkChatMessage uid2 m2 ch2) now ts2 = Ok200 r2
    /\ (Response.session_id r1 = Response.session_id r2 <-> uid1 = uid2).
Proof.
  rewrite !chat_ok. do 2 eexists. split; [reflexivity|]. split; [reflexivity|].
  cbn [Response.session_id user_id]. split.
  - intros H. apply List.app_inv_head in H. apply List.app_inv_tail in H. exact H.
  - intros ->. reflexivity.
Qed.

(** X8: every request schedules exactly one background log task, and the
    record it logs repeats the reply's text and intent, the user's message
    and the request's channel (which the reply omits); its confidence is the
    classifier's, which agrees with the reply's constant 0.95 only for the
    order_status intent. *)
Theorem logged_conversation (msg : ChatMessage) (now ts now_iso : pystr) :
  fst (chat_with_tasks msg now ts) = chat msg now ts
  /\ exists r t,
    chat_with_tasks msg now ts = (Ok200 r, [t])
    /\ log_bot_response (run_task t now_iso) = Response.response r
    /\ log_intent (run_task t now_iso) = Response.intent r
    /\ log_user_message (run_task t now_iso) = message msg
    /\ log_channel (run_task t now_iso) = channel msg
    /\ log_user_id (run_task t now_iso) = user_id msg
    /\ ((log_confidence (run_task t now_iso) == Response.confidence r)%Q
        <-> Response.intent r = u "order_status").
Proof.
  split; [reflexivity|]. do 2 eexists. split; [reflexivity|].
  destruct msg as [uid m ch]. cbn [run_task task_message task_response task_intent
    log_conversation log_bot_response log_intent log_user_message log_channel log_user_id
    log_confidence Response.response Response.intent Response.confidence message
    channel user_id].
  do 5 (split; [reflexivity|]).
  pose proof (classify_intent_cases m) as Hc.
  destruct (classify_intent m) as [t c]. cbn [type confidence].
  cbn [In intent_outcomes] in Hc.
  repeat destruct Hc as [Hc|Hc]; try contradiction; injection Hc as <- <-;
    (split; intros H; first [ reflexivity | vm_compute in H; discriminate H ]).
Qed.

Lemma int_of_str_letter (s : pystr) (c : Z) :
  In c s -> (97 <= c <= 122 \/ 65 <= c <= 90) -> int_of_str s = None.
Proof.
  intros Hin Hl.
  assert (Hds : forall ds, In c ds -> forallb is_digit ds = false).
  { intros ds Hd. apply not_true_iff_false. intros Hf.
    rewrite forallb_forall in Hf. specialize (Hf c Hd). unfold is_digit in Hf.
    apply andb_true_iff in Hf as [A B]. apply Z.leb_le in A. apply Z.leb_le in B. lia. }
  unfold int_of_str. destruct s as [|x rest]; [contradiction|].
  assert (Hrest : (x =? 45) = true \/ (x =? 43) = true -> In c rest).
  { intros Hx. destruct Hin as [<-|Hin]; [|exact Hin].
    exfalso. destruct Hx as [Hx|Hx]; apply Z.eqb_eq in Hx; lia. }
  destruct (x =? 45) eqn:E45; [|destruct (x =? 43) eqn:E43].
  - specialize (Hrest (or_introl eq_refl)).
    destruct rest as [|y rest']; [contradiction|]. rewrite (Hds _ Hrest). reflexivity.
  - specialize (Hrest (or_intror eq_refl)).
    destruct rest as [|y rest']; [contradiction|]. rewrite (Hds _ Hrest). reflexivity.
  - rewrite (Hds _ Hin). reflexivity.
Qed.

(** X9: validating a [List[Dict[str, int]]] fails as soon as one dict
    holds a string value with a letter in it; the literal that
    GET /analytics/summary passes for [top_intents] holds the intent names
    as such values ({"intent": "order_status", ...}), so building its
    [AnalyticsResponse] always raises and the endpoint answers with a
    server error, never with the summary. *)
Theorem analytics_summary_never_answers :
  (forall (ds : list (list (pystr * PyVal))) (d : list (pystr * PyVal)) (k s : pystr) (c : Z),
     In d ds -> In (k, VStr s) d -> In c s -> (97 <= c <= 122 \/ 65 <= c <= 90) ->
     validate_dicts ds = None)
  /\ analytics_summary = ServerError.
Proof.
  split; [|reflexivity].
  intros ds d k s c Hd Hkv Hc Hl. unfold validate_dicts.
  apply mapM_None_2, Exists_exists. exists d.
  split; [first [exact Hd | apply list_elem_of_In; exact Hd] |].
  apply mapM_None_2, Exists_exists. exists (k, VStr s).
  split; [first [exact Hkv | apply list_elem_of_In; exact Hkv] |].
  cbn [validate_int snd]. rewrite (int_of_str_letter s c Hc Hl). reflexivity.
Qed.

Lemma analytics_summary_never_answers_witness :
  In [(u "intent", VStr (u "billing")); (u "count", VInt 180)]
     [[(u "intent", VStr (u "billing")); (u "count", VInt 180)]]
  /\ validate_dicts [[(u "intent", VStr (u "billing")); (u "count", VInt 180)]] = None.
Proof.
  split; [left; reflexivity|].
  apply (proj1 analytics_summary_never_answers
           [[(u "intent", VStr (u "billing")); (u "count", VInt 180)]]
           [(u "intent", VStr (u "billing")); (u "count", VInt 180)]
           (u "intent") (u "billing") 98); [left; reflexivity | left; reflexivity | | lia].
  vm_compute. tauto.
Defined.
